(** * Screen time tracker: the usage-aggregation engine

    A shallow embedding of [ScreenTimeTracker] (screen_time_tracker.py):
    the two usage dictionaries, the tick ([update_usage]), the queries
    ([get_top_apps], [get_daily_total]), [format_time] and persistence
    ([save_data], [load_data]); and of what [ScreenTimeGUI] does with the
    tracker and puts in its widgets.

    Modelling choices.
    - Seconds are Python floats in the source.  They are modelled as exact
      rationals ([Q]); the rounding of binary64 arithmetic is not modelled.
      Sums are written in the order the code performs them, so the equalities
      below are syntactic equalities of the accumulated expressions: no
      statement regroups or reorders a sum, and none relies on a law of
      exact arithmetic that rounding breaks.
    - A Python [dict] keeps its keys in insertion order, and [get_top_apps]
      depends on that order, so a dictionary is an association list whose
      entries are in insertion order.  A lookup takes the first entry of a
      key; an update rewrites that entry in place; a new key is appended.
    - The clock, the foreground window and the local date are read from the
      environment on each tick; they are the fields of an [observation]. *)

From Stdlib Require Import List String ZArith QArith Qminmax Bool Lia.
From Stdlib Require Import Permutation Sorted.
From Stdlib Require Import Qround Lqa Ascii DecimalString DecimalZ DecimalPos.
Import ListNotations.

Open Scope string_scope.
Open Scope Q_scope.
Open Scope list_scope.

Set Implicit Arguments.

(** ** Insertion-ordered dictionaries *)

Module Dict.

Section WithValue.

Variable V : Type.

Definition dict := list (string * V).

(** [d.get(k, dflt)]: the value of the first entry of [k]. *)
Fixpoint get (dflt : V) (k : string) (d : dict) : V :=
  match d with
  | [] => dflt
  | (k', v) :: rest => if String.eqb k' k then v else get dflt k rest
  end.

(** [k in d]. *)
Fixpoint mem (k : string) (d : dict) : bool :=
  match d with
  | [] => false
  | (k', _) :: rest => String.eqb k' k || mem k rest
  end.

(** [d[k] = f(d[k])] on a [defaultdict] whose factory yields [dflt]: an
    existing entry is rewritten where it stands, a missing key is first
    created at the end with the default value. *)
Fixpoint alter (f : V -> V) (dflt : V) (k : string) (d : dict) : dict :=
  match d with
  | [] => [(k, f dflt)]
  | (k', v) :: rest =>
      if String.eqb k' k then (k', f v) :: rest
      else (k', v) :: alter f dflt k rest
  end.

(** [d[k] = v]. *)
Definition set (k : string) (v : V) (d : dict) : dict :=
  alter (fun _ => v) v k d.

Definition keys (d : dict) : list string := map fst d.

Definition values (d : dict) : list V := map snd d.

(** Keys of a Python dictionary are pairwise distinct. *)
Definition wf (d : dict) : Prop := NoDup (keys d).

End WithValue.

End Dict.

Unset Implicit Arguments.

(** ** The tracker *)

(** An application is identified by the name of its executable. *)
Definition AppId := string.

(** [app_usage]: application name to seconds. *)
Definition usage := Dict.dict Q.

(** [daily_usage]: date ([YYYY-MM-DD]) to application name to seconds. *)
Definition daily := Dict.dict usage.

Record tracker := {
  app_usage : usage;
  daily_usage : daily;
  is_tracking : bool;
  current_window : option string;
  last_check_time : Q
}.

(** What one tick reads from its environment: [time.time()], the process
    name of [get_active_window_info()] ([None] when there is no foreground
    window or the lookup failed) and [datetime.now().strftime("%Y-%m-%d")]. *)
Record observation := {
  clock : Q;
  foreground : option string;
  today : string
}.

(** [x < y] on seconds. *)
Definition Qltb (x y : Q) : bool := negb (Qle_bool y x).

(** Truth value of [app_name]: [None] and the empty string are false. *)
Definition truthy (name : option string) : bool :=
  match name with
  | None => false
  | Some n => negb (String.eqb n "")
  end.

(** [d[k] += e] on a [defaultdict(int)]. *)
Definition add_seconds (k : AppId) (e : Q) (d : usage) : usage :=
  Dict.alter (fun v => v + e) 0 k d.

(** [daily_usage[day][k] += e] on a [defaultdict] of [defaultdict(int)]. *)
Definition add_daily (day : string) (k : AppId) (e : Q) (d : daily) : daily :=
  Dict.alter (add_seconds k e) [] day d.

Definition ACTIVITY_THRESHOLD : Q := 5.

Definition start_tracking (now : Q) (t : tracker) : tracker :=
  {| app_usage := app_usage t;
     daily_usage := daily_usage t;
     is_tracking := true;
     current_window := current_window t;
     last_check_time := now |}.

Definition update_usage (t : tracker) (o : observation) : tracker :=
  if negb (is_tracking t) then t
  else
    let current_time := clock o in
    let time_diff := current_time - last_check_time t in
    match foreground o with
    | Some app_name =>
        if truthy (Some app_name) && Qltb time_diff ACTIVITY_THRESHOLD then
          {| app_usage := add_seconds app_name time_diff (app_usage t);
             daily_usage :=
               add_daily (today o) app_name time_diff (daily_usage t);
             is_tracking := is_tracking t;
             current_window := current_window t;
             last_check_time := current_time |}
        else
          {| app_usage := app_usage t;
             daily_usage := daily_usage t;
             is_tracking := is_tracking t;
             current_window := current_window t;
             last_check_time := current_time |}
    | None =>
        {| app_usage := app_usage t;
           daily_usage := daily_usage t;
           is_tracking := is_tracking t;
           current_window := current_window t;
           last_check_time := current_time |}
    end.

(** The sampling loop: one [update_usage] per observation, in order. *)
Definition run (t : tracker) (obs : list observation) : tracker :=
  fold_left update_usage obs t.

(** ** Queries *)

(** [sorted(items, key=lambda x: x[1], reverse=True)].  Python's sort is
    stable, also with [reverse=True]: entries with equal seconds keep the
    order they have in the dictionary.  It is modelled by a stable insertion
    sort: an entry is placed after the entries with strictly more seconds
    and before everything else. *)
Fixpoint insert_desc (x : AppId * Q) (l : list (AppId * Q)) : list (AppId * Q) :=
  match l with
  | [] => [x]
  | y :: rest =>
      if Qltb (snd x) (snd y) then y :: insert_desc x rest
      else x :: y :: rest
  end.

Definition sorted_desc (l : list (AppId * Q)) : list (AppId * Q) :=
  fold_right insert_desc [] l.

(** The slice [l[:limit]] for an integer [limit]: a negative [limit] counts
    from the end of the list. *)
Definition slice_to {A : Type} (limit : Z) (l : list A) : list A :=
  if (0 <=? limit)%Z then firstn (Z.to_nat limit) l
  else firstn (Z.to_nat (Z.of_nat (List.length l) + limit)) l.

Definition get_top_apps (t : tracker) (limit : Z) : list (AppId * Q) :=
  let sorted_apps := sorted_desc (app_usage t) in
  slice_to limit sorted_apps.

(** [sum(xs)]: left to right, starting from [0].  The additions are exact
    here and rounded in the code, so a total is only ever compared with the
    same sum of the same values. *)
Definition py_sum (xs : list Q) : Q := fold_left Qplus xs 0.

(** [get_daily_total(date)].  [daily_usage] is a [defaultdict]: reading
    [self.daily_usage[date]] creates the entry of a date that has none, so
    the tracker after the call is returned along with the total.  [today] is
    the local date, used when [date] is [None]. *)
Definition get_daily_total (t : tracker) (date : option string) (today : string)
  : tracker * Q :=
  let date := match date with None => today | Some d => d end in
  let daily_usage' := Dict.alter (fun apps => apps) [] date (daily_usage t) in
  ({| app_usage := app_usage t;
      daily_usage := daily_usage';
      is_tracking := is_tracking t;
      current_window := current_window t;
      last_check_time := last_check_time t |},
   py_sum (Dict.values (Dict.get [] date daily_usage'))).

(** ** Persistence *)

(** What [json.load] finds in the data file.  The documents covered are
    those whose numbers are seconds: a place where a usage mapping is
    expected holds either an object of numbers or, wrongly, a number, for
    which [defaultdict(int, ...)] raises.  Arrays and strings in such a
    place are not among the documents covered: some of them raise as well,
    others (the empty array, the empty string) are taken for an empty
    mapping. *)
Inductive usage_json :=
| UObj (apps : usage)
| UNum (q : Q).

Inductive daily_json :=
| DObj (days : Dict.dict usage_json)
| DNum (q : Q).

Inductive content :=
| NotJson
    (** the text is not JSON: [json.load] raises *)
| TopNum (q : Q)
    (** a JSON number at top level: it has no [get] *)
| TopObj (app_usage_field : option usage_json)
         (daily_usage_field : option daily_json).
    (** a JSON object, with its two fields when present *)

(** The data file: absent, or present with some content. *)
Definition store := option content.

Inductive exn := JSONDecodeError | AttributeError | TypeError.

(** How a call ends for its caller. *)
Inductive outcome := Returned | Raised (e : exn).

Definition set_app_usage (u : usage) (t : tracker) : tracker :=
  {| app_usage := u;
     daily_usage := daily_usage t;
     is_tracking := is_tracking t;
     current_window := current_window t;
     last_check_time := last_check_time t |}.

Definition set_daily_usage (d : daily) (t : tracker) : tracker :=
  {| app_usage := app_usage t;
     daily_usage := d;
     is_tracking := is_tracking t;
     current_window := current_window t;
     last_check_time := last_check_time t |}.

(** [save_data]: the document written to the data file. *)
Definition save_data (t : tracker) : content :=
  TopObj (Some (UObj (app_usage t)))
         (Some (DObj (map (fun '(date, apps) => (date, UObj apps))
                          (daily_usage t)))).

(** The loop [for date, apps in ...items(): self.daily_usage[date] =
    defaultdict(int, apps)].  It stops at the first entry that is not a
    mapping, keeping what it has stored so far. *)
Fixpoint load_days (t : tracker) (days : Dict.dict usage_json)
  : tracker * option exn :=
  match days with
  | [] => (t, None)
  | (date, UObj apps) :: rest =>
      load_days (set_daily_usage (Dict.set date apps (daily_usage t)) t) rest
  | (_, UNum _) :: _ => (t, Some TypeError)
  end.

(** The body of the [try] of [load_data]: the tracker when the body is left
    and the exception that left it, if any. *)
Definition load_body (t : tracker) (c : content) : tracker * option exn :=
  match c with
  | NotJson => (t, Some JSONDecodeError)
  | TopNum _ => (t, Some AttributeError)
  | TopObj (Some (UNum _)) _ => (t, Some TypeError)
  | TopObj a d =>
      let apps := match a with Some (UObj apps) => apps | _ => [] end in
      let t1 := set_app_usage apps t in
      let t2 := set_daily_usage [] t1 in
      match d with
      | None => (t2, None)
      | Some (DNum _) => (t2, Some AttributeError)
      | Some (DObj days) => load_days t2 days
      end
  end.

(** [load_data]: nothing to do without a data file; otherwise the body runs
    and [except: pass] swallows whatever it raises. *)
Definition load_data (t : tracker) (s : store) : tracker * outcome :=
  match s with
  | None => (t, Returned)
  | Some c =>
      let (t', _) := load_body t c in (t', Returned)
  end.

(** [ScreenTimeTracker()]: empty dictionaries, then [load_data]. *)
Definition init (now : Q) (s : store) : tracker :=
  fst (load_data {| app_usage := [];
                    daily_usage := [];
                    is_tracking := false;
                    current_window := None;
                    last_check_time := now |} s).

(** [stop_tracking]: the flag is cleared and the data file rewritten. *)
Definition stop_tracking (t : tracker) : tracker * store :=
  let t' := {| app_usage := app_usage t;
               daily_usage := daily_usage t;
               is_tracking := false;
               current_window := current_window t;
               last_check_time := last_check_time t |} in
  (t', Some (save_data t')).

(** ** Specification vocabulary *)

(** The seconds of [app] on [day] in [daily_usage]. *)
Definition daily_cell (day : string) (app : AppId) (d : daily) : Q :=
  Dict.get 0 app (Dict.get [] day d).

(** The ticks of a run whose reference time is [last], each with its
    elapsed time: the clock of the tick minus the clock of the one before. *)
Fixpoint ticks (last : Q) (obs : list observation) : list (Q * observation) :=
  match obs with
  | [] => []
  | o :: rest => (clock o - last, o) :: ticks (clock o) rest
  end.

(** The tick carries the application [app]: a name was observed, it is not
    the empty name (which the code takes for no application), and it is
    [app]. *)
Definition carries (app : AppId) (o : observation) : bool :=
  match foreground o with
  | Some n => String.eqb n app && negb (String.eqb n "")
  | None => false
  end.

(** The tick is attributed to [app]: it carries [app] and passes the guard. *)
Definition attributed_to (app : AppId) (tick : Q * observation) : bool :=
  carries app (snd tick) && Qltb (fst tick) ACTIVITY_THRESHOLD.

(** The elapsed values of the ticks attributed to [app], in order. *)
Definition attributed_elapsed (app : AppId) (last : Q) (obs : list observation)
  : list Q :=
  map fst (filter (attributed_to app) (ticks last obs)).

(** Neither mapping changed between [t] and [t']. *)
Definition untouched (t t' : tracker) : Prop :=
  app_usage t' = app_usage t /\ daily_usage t' = daily_usage t.

(** Between [t] and [t'] the lifetime entry of [app] and its entry on [day]
    both grew by [e], and no other entry of either mapping changed. *)
Definition credited (app : AppId) (day : string) (e : Q) (t t' : tracker)
  : Prop :=
  (forall a, Dict.get 0 a (app_usage t') =
             if String.eqb app a then Dict.get 0 a (app_usage t) + e
             else Dict.get 0 a (app_usage t)) /\
  (forall d a, daily_cell d a (daily_usage t') =
               if String.eqb day d && String.eqb app a
               then daily_cell d a (daily_usage t) + e
               else daily_cell d a (daily_usage t)).

(** The clock never goes back: every tick reads a clock that is at least
    the clock of the tick before ([last] for the first one). *)
Fixpoint clock_never_back (last : Q) (obs : list observation) : Prop :=
  match obs with
  | [] => True
  | o :: rest => last <= clock o /\ clock_never_back (clock o) rest
  end.

(** The tracker holds well-formed dictionaries. *)
Definition wf_tracker (t : tracker) : Prop :=
  Dict.wf (app_usage t) /\ Dict.wf (daily_usage t) /\
  Forall (fun entry => Dict.wf (snd entry)) (daily_usage t).

(** The entries of a JSON object whose values are all usage mappings. *)
Definition as_json (days : daily) : Dict.dict usage_json :=
  map (fun '(date, m) => (date, UObj m)) days.

(** A well-formed document, as [save_data] writes it: both fields present
    and every usage mapping an object of numbers. *)
Definition document (apps : usage) (days : daily) : content :=
  TopObj (Some (UObj apps)) (Some (DObj (as_json days))).


(** The tracker after a tick that is attributed to [a]. *)
Definition tick_credit (t : tracker) (o : observation) (a : AppId) : tracker :=
  {| app_usage := add_seconds a (clock o - last_check_time t) (app_usage t);
     daily_usage :=
       add_daily (today o) a (clock o - last_check_time t) (daily_usage t);
     is_tracking := is_tracking t;
     current_window := current_window t;
     last_check_time := clock o |}.

(** The tracker after a tick that is not attributed. *)
Definition tick_skip (t : tracker) (o : observation) : tracker :=
  {| app_usage := app_usage t;
     daily_usage := daily_usage t;
     is_tracking := is_tracking t;
     current_window := current_window t;
     last_check_time := clock o |}.

(** The entry has [v] seconds. *)
Definition has_seconds (v : Q) (entry : AppId * Q) : bool :=
  Qeq_bool (snd entry) v.

(** Seconds go down, or stay, from an entry to a later one. *)
Definition more_first (x y : AppId * Q) : Prop := snd y <= snd x.

(** ** Sample trackers, runs and stores *)

Definition demo_tracker : tracker :=
  {| app_usage := [("code.exe", 3)];
     daily_usage := [("2024-05-01", [("code.exe", 3)])];
     is_tracking := true;
     current_window := None;
     last_check_time := 10 |}.

Definition demo_run : list observation :=
  [ {| clock := 11; foreground := Some "code.exe"; today := "2024-05-01" |};
    {| clock := 12; foreground := None; today := "2024-05-01" |};
    {| clock := 20; foreground := Some "code.exe"; today := "2024-05-01" |};
    {| clock := 21; foreground := Some "chrome.exe"; today := "2024-05-01" |};
    {| clock := 23; foreground := Some "code.exe"; today := "2024-05-02" |} ].

Definition at_clock (c : Q) : observation :=
  {| clock := c; foreground := Some "code.exe"; today := "2024-05-01" |}.

Definition steady_run : list observation :=
  [ {| clock := 11; foreground := Some "code.exe"; today := "2024-05-01" |};
    {| clock := 11; foreground := Some "code.exe"; today := "2024-05-01" |};
    {| clock := 13; foreground := Some "chrome.exe"; today := "2024-05-01" |} ].

Definition four_apps : tracker :=
  {| app_usage := [("A", 100); ("B", 300); ("C", 50); ("D", 300)];
     daily_usage := [];
     is_tracking := false;
     current_window := None;
     last_check_time := 0 |}.


(** ** Formatting a duration *)

(** [x // y] on seconds: the floor of the quotient.  Floor and remainder
    are exact here; those of the code are the binary64 ones, which give
    the same results for [3600] and [60] on [0 <= x < 2^53], and differ
    outside (a tiny negative [x], a huge [x]). *)
Definition floordiv (x y : Q) : Q := inject_Z (Qfloor (x / y)).

(** [x % y] on seconds: what [x // y] leaves, with the sign of [y]. *)
Definition pymod (x y : Q) : Q := x - y * floordiv x y.

(** [int(x)]: truncation toward zero. *)
Definition py_int (x : Q) : Z :=
  if Qle_bool 0 x then Qfloor x else Qceiling x.

(** [f"{n:02d}"]: decimal digits, padded with zeros to two characters, the
    sign of a negative number counting as one of them. *)
Definition format_02d (n : Z) : string :=
  let digits := NilZero.string_of_int (Z.to_int n) in
  if (0 <=? n)%Z && (n <? 10)%Z then String "0" digits else digits.

(** The three numbers [format_time] prints: [hours], [minutes], [seconds]. *)
Definition time_fields (seconds : Q) : Z * Z * Z :=
  let hours := py_int (floordiv seconds 3600) in
  let minutes := py_int (floordiv (pymod seconds 3600) 60) in
  let seconds := py_int (pymod seconds 60) in
  (hours, minutes, seconds).

Definition format_time (seconds : Q) : string :=
  let '(hours, minutes, seconds) := time_fields seconds in
  String.append (format_02d hours)
    (String ":" (String.append (format_02d minutes)
       (String ":" (format_02d seconds)))).

(** ** The window

    Of [ScreenTimeGUI], what its methods do to the tracker, to the data
    file and to the texts and rows they put in the widgets.  The tracking
    thread and the event loop are taken one whole method call at a time. *)

Record gui := {
  gui_tracker : tracker;
  status_label : string;
  start_btn_enabled : bool;
  stop_btn_enabled : bool;
  today_total_label : string;
  today_tree : list (string * string);
  alltime_total_label : string;
  alltime_tree : list (string * string);
  (** what the chart library is asked to draw: the labels and the values
      given to the pie, then the heights in hours given to the bars; [None]
      when it is asked for nothing.  The library itself is not modelled:
      it can refuse what it is given (the pie raises on a negative value),
      and then nothing is drawn. *)
  chart : option (list AppId * list Q * list Q)
}.

Definition with_tracker (t : tracker) (g : gui) : gui :=
  {| gui_tracker := t;
     status_label := status_label g;
     start_btn_enabled := start_btn_enabled g;
     stop_btn_enabled := stop_btn_enabled g;
     today_total_label := today_total_label g;
     today_tree := today_tree g;
     alltime_total_label := alltime_total_label g;
     alltime_tree := alltime_tree g;
     chart := chart g |}.

(** The rows of a tree: the application and its formatted time. *)
Definition rows (entries : list (AppId * Q)) : list (string * string) :=
  map (fun '(app, time_used) => (app, format_time time_used)) entries.

Definition update_today_display (today : string) (g : gui) : gui :=
  let t := gui_tracker g in
  let daily_usage' := Dict.alter (fun apps => apps) [] today (daily_usage t) in
  let today_data := Dict.get [] today daily_usage' in
  let total_time := py_sum (Dict.values today_data) in
  let sorted_apps := sorted_desc today_data in
  {| gui_tracker := set_daily_usage daily_usage' t;
     status_label := status_label g;
     start_btn_enabled := start_btn_enabled g;
     stop_btn_enabled := stop_btn_enabled g;
     today_total_label :=
       String.append "Today's Total: " (format_time total_time);
     today_tree := rows sorted_apps;
     alltime_total_label := alltime_total_label g;
     alltime_tree := alltime_tree g;
     chart := chart g |}.

Definition update_alltime_display (g : gui) : gui :=
  let t := gui_tracker g in
  let total_time := py_sum (Dict.values (app_usage t)) in
  let top_apps := get_top_apps t 20 in
  {| gui_tracker := t;
     status_label := status_label g;
     start_btn_enabled := start_btn_enabled g;
     stop_btn_enabled := stop_btn_enabled g;
     today_total_label := today_total_label g;
     today_tree := today_tree g;
     alltime_total_label :=
       String.append "Total Time: " (format_time total_time);
     alltime_tree := rows top_apps;
     chart := chart g |}.

(** [update_stats_display]: the chart asked for, from the top eight
    applications; nothing is asked for when there is none. *)
Definition update_stats_display (g : gui) : gui :=
  let top_apps := get_top_apps (gui_tracker g) 8 in
  let drawn :=
    match top_apps with
    | [] => None
    | _ :: _ =>
        let apps := map fst top_apps in
        let times := map snd top_apps in
        Some (apps, times, map (fun t => t / 3600) times)
    end in
  {| gui_tracker := gui_tracker g;
     status_label := status_label g;
     start_btn_enabled := start_btn_enabled g;
     stop_btn_enabled := stop_btn_enabled g;
     today_total_label := today_total_label g;
     today_tree := today_tree g;
     alltime_total_label := alltime_total_label g;
     alltime_tree := alltime_tree g;
     chart := drawn |}.

Definition refresh_display (today : string) (g : gui) : gui :=
  update_stats_display (update_alltime_display (update_today_display today g)).

Definition set_status (status : string) (start_enabled stop_enabled : bool)
  (g : gui) : gui :=
  {| gui_tracker := gui_tracker g;
     status_label := status;
     start_btn_enabled := start_enabled;
     stop_btn_enabled := stop_enabled;
     today_total_label := today_total_label g;
     today_tree := today_tree g;
     alltime_total_label := alltime_total_label g;
     alltime_tree := alltime_tree g;
     chart := chart g |}.


(** [ScreenTimeGUI.stop_tracking]: the tracker stops and saves, then the
    display is refreshed.  The data file written is returned. *)
Definition gui_stop_tracking (today : string) (g : gui) : gui * store :=
  let (t', file) := stop_tracking (gui_tracker g) in
  (refresh_display today
     (set_status "Status: Stopped" true false (with_tracker t' g)),
   file).



(** [ScreenTimeGUI()]: the tracker is built from the data file, the widgets
    are created with their first texts, both buttons enabled. *)
Definition gui_init (now : Q) (s : store) : gui :=
  {| gui_tracker := init now s;
     status_label := "Status: Stopped";
     start_btn_enabled := true;
     stop_btn_enabled := true;
     today_total_label := "Today's Total: 00:00:00";
     today_tree := [];
     alltime_total_label := "Total Time: 00:00:00";
     alltime_tree := [];
     chart := None |}.




(** ** More specification vocabulary *)

(** The all-time total, as the window computes it. *)
Definition all_time_total (t : tracker) : Q :=
  py_sum (Dict.values (app_usage t)).

(** The tick is attributed to [app] on the date [day]. *)
Definition attributed_on (day : string) (app : AppId)
  (tick : Q * observation) : bool :=
  attributed_to app tick && String.eqb (today (snd tick)) day.

(** [l1] is the beginning of [l2]. *)
Definition is_prefix {A : Type} (l1 l2 : list A) : Prop :=
  exists rest, l2 = l1 ++ rest.

(** The entries of a JSON object up to the first one that holds a
    number. *)
Fixpoint mappings_before_error (days : Dict.dict usage_json) : daily :=
  match days with
  | (date, UObj apps) :: rest => (date, apps) :: mappings_before_error rest
  | _ => []
  end.

(** The text has no colon. *)
Fixpoint colon_free (s : string) : bool :=
  match s with
  | EmptyString => true
  | String c rest => negb (Ascii.eqb c ":") && colon_free rest
  end.

(** Reading back a number printed by [format_02d]. *)
Definition parse_02d (s : string) : option Z :=
  option_map Z.of_int (NilZero.int_of_string s).


(** ** Dictionary facts *)

Module DictFacts.

Section WithValue.

Variable V : Type.

Lemma get_alter (f : V -> V) (dflt : V) (k k' : string) (d : Dict.dict V) :
  Dict.get dflt k' (Dict.alter f dflt k d) =
  if String.eqb k k' then f (Dict.get dflt k' d) else Dict.get dflt k' d.
Proof.
  induction d as [|[k0 v] rest IH]; simpl.
  - rewrite String.eqb_sym.
    destruct (String.eqb_spec k' k) as [->|]; reflexivity.
  - destruct (String.eqb_spec k0 k) as [->|Hk0]; simpl.
    + destruct (String.eqb_spec k k'); reflexivity.
    + destruct (String.eqb_spec k0 k') as [->|Hk0'].
      * destruct (String.eqb_spec k k'); [congruence | reflexivity].
      * exact IH.
Qed.

Lemma alter_id_present (dflt : V) (k : string) (d : Dict.dict V) :
  Dict.mem k d = true -> Dict.alter (fun v => v) dflt k d = d.
Proof.
  induction d as [|[k0 v] rest IH]; simpl; [discriminate|].
  destruct (String.eqb k0 k); simpl; intros H; [reflexivity|].
  now rewrite IH.
Qed.

Lemma mem_In_keys (k : string) (d : Dict.dict V) :
  Dict.mem k d = true <-> In k (Dict.keys d).
Proof.
  induction d as [|[k0 v] rest IH]; simpl.
  - split; [discriminate | tauto].
  - rewrite orb_true_iff, IH, String.eqb_eq. tauto.
Qed.

Lemma alter_absent (f : V -> V) (dflt : V) (k : string) (d : Dict.dict V) :
  ~ In k (Dict.keys d) -> Dict.alter f dflt k d = d ++ [(k, f dflt)].
Proof.
  induction d as [|[k0 v] rest IH]; simpl; [reflexivity|].
  intros H. destruct (String.eqb_spec k0 k) as [->|_]; [tauto|].
  rewrite IH; tauto.
Qed.

Lemma keys_alter (f : V -> V) (dflt : V) (k : string) (d : Dict.dict V) :
  Dict.keys (Dict.alter f dflt k d) =
  if Dict.mem k d then Dict.keys d else Dict.keys d ++ [k].
Proof.
  induction d as [|[k0 v] rest IH]; simpl; [reflexivity|].
  destruct (String.eqb k0 k); simpl; [reflexivity|].
  rewrite IH. destruct (Dict.mem k rest); reflexivity.
Qed.

Lemma wf_alter (f : V -> V) (dflt : V) (k : string) (d : Dict.dict V) :
  Dict.wf d -> Dict.wf (Dict.alter f dflt k d).
Proof.
  unfold Dict.wf. rewrite keys_alter.
  destruct (Dict.mem k d) eqn:E; [tauto|].
  intros H. apply NoDup_app; [exact H| repeat constructor; simpl; tauto|].
  intros x Hx [<-|[]]. apply mem_In_keys in Hx. congruence.
Qed.

End WithValue.

End DictFacts.

(** ** Facts about one tick *)

Lemma Qltb_lt (x y : Q) : Qltb x y = true <-> x < y.
Proof.
  unfold Qltb. rewrite negb_true_iff, <- not_true_iff_false, Qle_bool_iff.
  split; [apply Qnot_le_lt | apply Qlt_not_le].
Qed.

Lemma Qltb_ge (x y : Q) : Qltb x y = false <-> y <= x.
Proof.
  unfold Qltb. rewrite negb_false_iff. apply Qle_bool_iff.
Qed.

Lemma get_add_seconds (k a : AppId) (e : Q) (d : usage) :
  Dict.get 0 a (add_seconds k e d) =
  if String.eqb k a then Dict.get 0 a d + e else Dict.get 0 a d.
Proof. unfold add_seconds. apply DictFacts.get_alter. Qed.

Lemma cell_add_daily (day d : string) (k a : AppId) (e : Q) (dl : daily) :
  daily_cell d a (add_daily day k e dl) =
  if String.eqb day d && String.eqb k a then daily_cell d a dl + e
  else daily_cell d a dl.
Proof.
  unfold daily_cell, add_daily. rewrite DictFacts.get_alter.
  destruct (String.eqb day d); simpl; [|reflexivity].
  apply get_add_seconds.
Qed.

Lemma update_usage_cases (t : tracker) (o : observation) :
  is_tracking t = true ->
  (exists a, foreground o = Some a /\ a <> "" /\
             clock o - last_check_time t < ACTIVITY_THRESHOLD /\
             update_usage t o = tick_credit t o a) \/
  ((foreground o = None \/ foreground o = Some "" \/
    ACTIVITY_THRESHOLD <= clock o - last_check_time t) /\
   update_usage t o = tick_skip t o).
Proof.
  intros Htr. unfold update_usage, tick_skip, tick_credit.
  rewrite Htr. simpl.
  destruct (foreground o) as [a|] eqn:Ha; [|right; split; auto].
  unfold truthy.
  destruct (String.eqb_spec a "") as [->|Hne]; simpl.
  - right; split; [tauto | reflexivity].
  - destruct (Qltb _ _) eqn:Hlt.
    + left. exists a. apply Qltb_lt in Hlt. auto.
    + right. apply Qltb_ge in Hlt. split; [tauto | reflexivity].
Qed.

Lemma update_usage_not_tracking (t : tracker) (o : observation) :
  is_tracking t = false -> update_usage t o = t.
Proof. intros H. unfold update_usage. now rewrite H. Qed.

Lemma update_usage_flag (t : tracker) (o : observation) :
  is_tracking (update_usage t o) = is_tracking t.
Proof.
  unfold update_usage. destruct (is_tracking t) eqn:E; simpl; [|exact E].
  destruct (foreground o); [|reflexivity].
  destruct (_ && _); reflexivity.
Qed.

Lemma update_usage_clock (t : tracker) (o : observation) :
  is_tracking t = true -> last_check_time (update_usage t o) = clock o.
Proof.
  intros H. unfold update_usage. rewrite H. simpl.
  destruct (foreground o); [|reflexivity].
  destruct (_ && _); reflexivity.
Qed.

Lemma tick_credit_credited (t : tracker) (o : observation) (a : AppId) :
  credited a (today o) (clock o - last_check_time t) t (tick_credit t o a).
Proof.
  split; simpl; intros.
  - apply get_add_seconds.
  - apply cell_add_daily.
Qed.

Lemma run_app (t : tracker) (obs1 obs2 : list observation) :
  run t (obs1 ++ obs2) = run (run t obs1) obs2.
Proof. unfold run. apply fold_left_app. Qed.

Lemma run_flag (t : tracker) (obs : list observation) :
  is_tracking (run t obs) = is_tracking t.
Proof.
  revert t. induction obs as [|o rest IH]; intros t; [reflexivity|].
  change (run t (o :: rest)) with (run (update_usage t o) rest).
  rewrite IH. apply update_usage_flag.
Qed.

(** ** The tick: attribution, guard, atomicity *)

(** C1.  Over any finite sequence of ticks processed while tracking is on,
    the lifetime seconds of an application end at what they were at the
    start plus the elapsed values of exactly the ticks attributed to it
    (those that carry it and whose elapsed time is below 5 seconds; a tick
    rejected by the guard or carrying no application adds nothing), each
    added once, in the order of the ticks.  For a tracker that starts empty
    the starting value is [0]. *)
Theorem lifetime_is_sum_of_attributed
  (t : tracker) (obs : list observation) (app : AppId) :
  is_tracking t = true ->
  Dict.get 0 app (app_usage (run t obs)) =
  fold_left Qplus (attributed_elapsed app (last_check_time t) obs)
            (Dict.get 0 app (app_usage t)).
Proof.
  revert t. induction obs as [|o rest IH]; intros t Htr; [reflexivity|].
  change (run t (o :: rest)) with (run (update_usage t o) rest).
  rewrite IH by (now rewrite update_usage_flag).
  rewrite update_usage_clock by exact Htr.
  unfold attributed_elapsed. simpl ticks. simpl filter.
  unfold attributed_to at 2, carries. simpl fst; simpl snd.
  destruct (update_usage_cases t o Htr)
    as [(a & Ha & Hne & Hlt & ->)|([Ha|[Ha|Hge]] & ->)].
  - rewrite Ha. apply Qltb_lt in Hlt. rewrite Hlt, andb_true_r.
    apply String.eqb_neq in Hne. rewrite Hne, andb_true_r. simpl app_usage.
    rewrite get_add_seconds.
    destruct (String.eqb a app); reflexivity.
  - rewrite Ha. reflexivity.
  - rewrite Ha. simpl. rewrite andb_false_r. reflexivity.
  - apply Qltb_ge in Hge. rewrite Hge, andb_false_r. reflexivity.
Qed.

Lemma lifetime_is_sum_of_attributed_witness :
  Dict.get 0 "code.exe" (app_usage (run demo_tracker demo_run)) =
  fold_left Qplus [11 - 10; 23 - 21] 3.
Proof.
  exact (lifetime_is_sum_of_attributed demo_tracker demo_run "code.exe"
           eq_refl).
Defined.

(** C2.  A tick that carries an application (a process name was observed,
    and it is not the empty name, which the code takes for no application)
    is rejected when its elapsed time is at least 5 seconds: both mappings
    stay as they are.  It is accepted when its elapsed time is strictly
    below 5 seconds: the application is credited with the elapsed time in
    both mappings.  Exactly 5 seconds is rejected. *)
Theorem five_second_guard (t : tracker) (o : observation) (app : AppId) :
  is_tracking t = true ->
  foreground o = Some app ->
  app <> "" ->
  let elapsed := clock o - last_check_time t in
  (5 <= elapsed -> untouched t (update_usage t o)) /\
  (elapsed == 5 -> untouched t (update_usage t o)) /\
  (elapsed < 5 -> credited app (today o) elapsed t (update_usage t o)).
Proof.
  intros Htr Ha Hne elapsed. subst elapsed.
  assert (Hrej : 5 <= clock o - last_check_time t ->
                 untouched t (update_usage t o)).
  { intros Hge.
    destruct (update_usage_cases t o Htr)
      as [(a & _ & _ & Hlt & _)|(_ & ->)].
    - exfalso. apply (Qlt_not_le _ _ Hlt). exact Hge.
    - split; reflexivity. }
  split; [exact Hrej|]. split.
  - intros Heq. apply Hrej. rewrite Heq. apply Qle_refl.
  - intros Hlt.
    destruct (update_usage_cases t o Htr)
      as [(a & Ha' & _ & _ & ->)|([Hn|[Hn|Hge]] & _)].
    + assert (a = app) as -> by congruence. apply tick_credit_credited.
    + congruence.
    + congruence.
    + exfalso. apply (Qlt_not_le _ _ Hlt). exact Hge.
Qed.

Lemma five_second_guard_witness :
  untouched demo_tracker (update_usage demo_tracker (at_clock 15)) /\
  credited "code.exe" "2024-05-01" (14.999 - 10) demo_tracker
           (update_usage demo_tracker (at_clock 14.999)).
Proof.
  split.
  - apply (five_second_guard demo_tracker (at_clock 15) "code.exe");
      [reflexivity | reflexivity | discriminate | reflexivity].
  - apply (five_second_guard demo_tracker (at_clock 14.999) "code.exe");
      [reflexivity | reflexivity | discriminate | reflexivity].
Defined.

(** C3.  A tick whose observed application is none leaves both mappings as
    they are, whatever its elapsed time. *)
Theorem no_app_no_change (t : tracker) (now : Q) (day : string) :
  untouched t (update_usage t {| clock := now; foreground := None;
                                 today := day |}).
Proof.
  unfold untouched, update_usage.
  destruct (is_tracking t); simpl; split; reflexivity.
Qed.

(** C4.  A tick updates the two mappings together or not at all: either the
    observed application is credited with the elapsed time in the lifetime
    mapping and in the mapping of the day, or neither mapping changes. *)
Theorem tick_is_atomic (t : tracker) (o : observation) :
  untouched t (update_usage t o) \/
  exists app,
    foreground o = Some app /\
    credited app (today o) (clock o - last_check_time t) t (update_usage t o).
Proof.
  destruct (is_tracking t) eqn:Htr.
  - destruct (update_usage_cases t o Htr)
      as [(a & Ha & _ & _ & ->)|(_ & ->)].
    + right. exists a. split; [exact Ha | apply tick_credit_credited].
    + left. split; reflexivity.
  - left. rewrite update_usage_not_tracking by exact Htr. split; reflexivity.
Qed.

(** ** Monotonicity of the lifetime seconds *)

Lemma Qle_add_nonneg (x e : Q) : 0 <= e -> x <= x + e.
Proof.
  intros H. rewrite <- (Qplus_0_r x) at 1. apply Qplus_le_r. exact H.
Qed.

Lemma update_usage_monotone (t : tracker) (o : observation) (app : AppId) :
  is_tracking t = true ->
  last_check_time t <= clock o ->
  Dict.get 0 app (app_usage t) <= Dict.get 0 app (app_usage (update_usage t o)).
Proof.
  intros Htr Hle.
  destruct (update_usage_cases t o Htr) as [(a & _ & _ & _ & ->)|(_ & ->)].
  - simpl. rewrite get_add_seconds. destruct (String.eqb a app).
    + apply Qle_add_nonneg. apply -> Qle_minus_iff. exact Hle.
    + apply Qle_refl.
  - apply Qle_refl.
Qed.

Lemma run_monotone (obs : list observation) (t : tracker) (app : AppId) :
  is_tracking t = true ->
  clock_never_back (last_check_time t) obs ->
  Dict.get 0 app (app_usage t) <= Dict.get 0 app (app_usage (run t obs)).
Proof.
  revert t. induction obs as [|o rest IH]; intros t Htr Hck.
  - apply Qle_refl.
  - destruct Hck as [Hle Hrest].
    change (run t (o :: rest)) with (run (update_usage t o) rest).
    eapply Qle_trans; [apply update_usage_monotone; eassumption|].
    apply IH.
    + now rewrite update_usage_flag.
    + now rewrite update_usage_clock.
Qed.

Lemma clock_never_back_suffix (obs1 obs2 : list observation) (t : tracker) :
  is_tracking t = true ->
  clock_never_back (last_check_time t) (obs1 ++ obs2) ->
  clock_never_back (last_check_time (run t obs1)) obs2.
Proof.
  revert t. induction obs1 as [|o rest IH]; intros t Htr Hck; [exact Hck|].
  destruct Hck as [_ Hrest].
  change (run t (o :: rest)) with (run (update_usage t o) rest).
  apply IH.
  - now rewrite update_usage_flag.
  - now rewrite update_usage_clock.
Qed.

(** C5, as the claim states it, fails: a tick whose clock is behind the
    reference time has a negative elapsed time, which passes the guard and
    is added.  Here the clock goes from 10 back to 8 and the lifetime
    seconds of the application drop from 3 to 1. *)
Lemma clock_going_back_lowers_lifetime :
  is_tracking demo_tracker = true /\
  ~ (Dict.get 0 "code.exe" (app_usage demo_tracker) <=
     Dict.get 0 "code.exe" (app_usage (run demo_tracker [at_clock 8]))).
Proof.
  split; [reflexivity|].
  intros H. vm_compute in H. apply H. reflexivity.
Qed.

(** C5, amended.  While tracking is on and the clock never goes back, the
    lifetime seconds of every application never decrease from one tick to
    any later one. *)
Theorem lifetime_never_decreases
  (t : tracker) (obs more : list observation) (app : AppId) :
  is_tracking t = true ->
  clock_never_back (last_check_time t) (obs ++ more) ->
  Dict.get 0 app (app_usage (run t obs)) <=
  Dict.get 0 app (app_usage (run t (obs ++ more))).
Proof.
  intros Htr Hck. rewrite run_app. apply run_monotone.
  - now rewrite run_flag.
  - now apply clock_never_back_suffix.
Qed.

Lemma lifetime_never_decreases_witness :
  Dict.get 0 "code.exe" (app_usage (run demo_tracker (firstn 1 steady_run))) <=
  Dict.get 0 "code.exe" (app_usage (run demo_tracker steady_run)).
Proof.
  apply (lifetime_never_decreases demo_tracker (firstn 1 steady_run)
           (skipn 1 steady_run) "code.exe").
  - reflexivity.
  - simpl. repeat split; discriminate.
Defined.

(** ** Queries *)

Lemma get_daily_total_frame (t : tracker) (date : option string) (day : string) :
  let t' := fst (get_daily_total t date day) in
  app_usage t' = app_usage t /\ is_tracking t' = is_tracking t /\
  current_window t' = current_window t /\
  last_check_time t' = last_check_time t.
Proof. simpl. repeat split. Qed.

Lemma get_daily_total_present (t : tracker) (date day : string) :
  Dict.mem date (daily_usage t) = true ->
  fst (get_daily_total t (Some date) day) = t.
Proof.
  intros H. unfold get_daily_total. simpl.
  rewrite DictFacts.alter_id_present by exact H. now destruct t.
Qed.

Lemma get_daily_total_missing (t : tracker) (date day : string) :
  Dict.mem date (daily_usage t) = false ->
  daily_usage (fst (get_daily_total t (Some date) day)) =
    daily_usage t ++ [(date, [])] /\
  snd (get_daily_total t (Some date) day) = 0.
Proof.
  intros H. unfold get_daily_total. simpl.
  assert (Hin : ~ In date (Dict.keys (daily_usage t))).
  { rewrite <- DictFacts.mem_In_keys. congruence. }
  split.
  - now apply DictFacts.alter_absent.
  - rewrite DictFacts.get_alter, String.eqb_refl.
    assert (Hget : Dict.get [] date (daily_usage t) = []).
    { clear H. induction (daily_usage t) as [|[k v] rest IH]; [reflexivity|].
      simpl in *. destruct (String.eqb_spec k date) as [->|]; [tauto|].
      apply IH. tauto. }
    rewrite Hget. reflexivity.
Qed.

(** C6.  [get_daily_total] is not a pure read.  Asked for a date that has no
    entry, it answers [0] and leaves a new, empty entry for that date in
    [daily_usage]: the mapping after the call differs from the one before. *)
Theorem daily_total_of_missing_date_adds_entry :
  let before := demo_tracker in
  let after := fst (get_daily_total before (Some "1999-12-31") "2024-05-01") in
  snd (get_daily_total before (Some "1999-12-31") "2024-05-01") = 0 /\
  daily_usage before = [("2024-05-01", [("code.exe", 3)])] /\
  daily_usage after = [("2024-05-01", [("code.exe", 3)]); ("1999-12-31", [])] /\
  daily_usage after <> daily_usage before.
Proof.
  simpl. repeat split. discriminate.
Qed.

Lemma insert_desc_perm (x : AppId * Q) (l : list (AppId * Q)) :
  Permutation (insert_desc x l) (x :: l).
Proof.
  induction l as [|y rest IH]; simpl; [apply Permutation_refl|].
  destruct (Qltb (snd x) (snd y)); [|apply Permutation_refl].
  eapply Permutation_trans; [apply perm_skip, IH | apply perm_swap].
Qed.

Lemma sorted_desc_perm (l : list (AppId * Q)) : Permutation (sorted_desc l) l.
Proof.
  induction l as [|x rest IH]; simpl; [apply perm_nil|].
  eapply Permutation_trans; [apply insert_desc_perm | apply perm_skip, IH].
Qed.

Lemma insert_desc_sorted (x : AppId * Q) (l : list (AppId * Q)) :
  StronglySorted more_first l -> StronglySorted more_first (insert_desc x l).
Proof.
  induction l as [|y rest IH]; simpl; intros Hs.
  - repeat constructor.
  - inversion Hs as [|? ? Hrest Hall]; subst.
    destruct (Qltb (snd x) (snd y)) eqn:E.
    + constructor; [apply IH, Hrest|].
      eapply Permutation_Forall; [apply Permutation_sym, insert_desc_perm|].
      constructor; [|exact Hall].
      apply Qltb_lt in E. apply Qlt_le_weak, E.
    + apply Qltb_ge in E. constructor; [exact Hs|].
      constructor; [exact E|].
      eapply Forall_impl; [|exact Hall].
      intros z Hz. unfold more_first in *. eapply Qle_trans; eassumption.
Qed.

Lemma sorted_desc_sorted (l : list (AppId * Q)) :
  StronglySorted more_first (sorted_desc l).
Proof.
  induction l as [|x rest IH]; simpl; [constructor|].
  apply insert_desc_sorted, IH.
Qed.

Lemma insert_desc_stable (v : Q) (x : AppId * Q) (l : list (AppId * Q)) :
  filter (has_seconds v) (insert_desc x l) = filter (has_seconds v) (x :: l).
Proof.
  induction l as [|y rest IH]; [reflexivity|].
  simpl insert_desc. destruct (Qltb (snd x) (snd y)) eqn:E; [|reflexivity].
  simpl filter in *. rewrite IH.
  destruct (has_seconds v x) eqn:Hx; [|reflexivity].
  destruct (has_seconds v y) eqn:Hy; [|reflexivity].
  exfalso. unfold has_seconds in *.
  apply Qeq_bool_iff in Hx, Hy. apply Qltb_lt in E.
  rewrite Hx, Hy in E. exact (Qlt_irrefl _ E).
Qed.

Lemma sorted_desc_stable (v : Q) (l : list (AppId * Q)) :
  filter (has_seconds v) (sorted_desc l) = filter (has_seconds v) l.
Proof.
  induction l as [|x rest IH]; [reflexivity|].
  simpl sorted_desc. rewrite insert_desc_stable. simpl. now rewrite IH.
Qed.

Lemma slice_to_nonneg {A : Type} (limit : Z) (l : list A) :
  (0 <= limit)%Z -> slice_to limit l = firstn (Z.to_nat limit) l.
Proof.
  intros H. unfold slice_to. apply Z.leb_le in H. now rewrite H.
Qed.

(** C7.  For every tracker and every limit that is a count, [get_top_apps]
    returns the first [limit] entries (all of them when there are fewer) of
    the entries of [app_usage] arranged by seconds, most first, entries with
    equal seconds staying in the order they have in the dictionary, which
    is the order in which the applications were first seen.  On
    [{A:100, B:300, C:50, D:300}] with limit 3 the result is
    [[(B,300); (D,300); (A,100)]]. *)
Theorem top_apps_sorted_stable_truncated (t : tracker) (limit : nat) :
  let top := get_top_apps t (Z.of_nat limit) in
  (exists rest,
      (List.length top <= limit)%nat /\
      List.length top = Nat.min limit (List.length (app_usage t)) /\
      Permutation (top ++ rest) (app_usage t) /\
      StronglySorted more_first (top ++ rest) /\
      (forall v, filter (has_seconds v) (top ++ rest) =
                 filter (has_seconds v) (app_usage t))) /\
  get_top_apps
    (set_app_usage [("A", 100); ("B", 300); ("C", 50); ("D", 300)] t) 3 =
  [("B", 300); ("D", 300); ("A", 100)].
Proof.
  intros top. subst top. unfold get_top_apps.
  rewrite slice_to_nonneg by apply Nat2Z.is_nonneg.
  rewrite Nat2Z.id.
  split; [|reflexivity].
  exists (skipn limit (sorted_desc (app_usage t))).
  rewrite firstn_skipn, length_firstn.
  rewrite (Permutation_length (sorted_desc_perm (app_usage t))).
  repeat split.
  - apply Nat.le_min_l.
  - apply sorted_desc_perm.
  - apply sorted_desc_sorted.
  - intros v. apply sorted_desc_stable.
Qed.

(** A negative limit is not a count: the slice then drops entries from the
    end of the sorted list instead. *)
Lemma top_apps_negative_limit :
  get_top_apps four_apps (-1) = [("B", 300); ("D", 300); ("A", 100)].
Proof. reflexivity. Qed.

(** ** Persistence *)

Lemma set_absent {V : Type} (k : string) (v : V) (d : Dict.dict V) :
  ~ In k (Dict.keys d) -> Dict.set k v d = d ++ [(k, v)].
Proof. unfold Dict.set. apply DictFacts.alter_absent. Qed.

Lemma load_days_mappings (days : daily) (t : tracker) :
  NoDup (Dict.keys (daily_usage t) ++ Dict.keys days) ->
  load_days t (as_json days) =
  (set_daily_usage (daily_usage t ++ days) t, None).
Proof.
  revert t. induction days as [|[date m] rest IH]; intros t Hnd; simpl.
  - rewrite app_nil_r. now destruct t.
  - assert (Hfresh : ~ In date (Dict.keys (daily_usage t))).
    { intros Hin. apply NoDup_remove_2 in Hnd. apply Hnd.
      apply in_or_app. now left. }
    rewrite IH; simpl; rewrite set_absent by exact Hfresh.
    + now rewrite <- app_assoc.
    + unfold Dict.keys in *. rewrite map_app, <- app_assoc. exact Hnd.
Qed.

Lemma load_document (t : tracker) (apps : usage) (days : daily) :
  Dict.wf days ->
  load_data t (Some (document apps days)) =
  (set_daily_usage days (set_app_usage apps t), Returned).
Proof.
  intros Hwf. unfold load_data, document, load_body.
  rewrite load_days_mappings; [reflexivity|exact Hwf].
Qed.

(** C8.  What [save_data] writes, loaded into a fresh tracker, gives back
    the two mappings that were saved.  The fresh tracker is either one built
    while there was no data file, into which the file is then loaded, or
    one built by the constructor, which loads the file itself. *)
Theorem save_then_load_roundtrip (t : tracker) (now : Q) :
  Dict.wf (daily_usage t) ->
  let saved := Some (save_data t) in
  let loaded := fst (load_data (init now None) saved) in
  (app_usage loaded = app_usage t /\ daily_usage loaded = daily_usage t) /\
  (app_usage (init now saved) = app_usage t /\
   daily_usage (init now saved) = daily_usage t).
Proof.
  intros Hwf saved loaded. subst saved loaded. unfold init.
  change (save_data t) with (document (app_usage t) (daily_usage t)).
  rewrite !load_document by exact Hwf.
  simpl. repeat split.
Qed.

Lemma save_then_load_roundtrip_witness :
  app_usage (init 0 (Some (save_data demo_tracker))) = app_usage demo_tracker /\
  daily_usage (init 0 (Some (save_data demo_tracker))) =
    daily_usage demo_tracker.
Proof.
  apply (save_then_load_roundtrip demo_tracker 0).
  repeat constructor. simpl. tauto.
Defined.




(** C10.  A load of a well-formed store replaces both mappings by the
    contents of the store, whatever the tracker held: an application or a
    date that the store does not have is not in the tracker afterwards. *)
Theorem load_replaces_wholesale (t : tracker) (apps : usage) (days : daily) :
  Dict.wf days ->
  let result := load_data t (Some (document apps days)) in
  snd result = Returned /\
  app_usage (fst result) = apps /\
  daily_usage (fst result) = days /\
  (forall a, Dict.mem a apps = false ->
             Dict.mem a (app_usage (fst result)) = false) /\
  (forall d, Dict.mem d days = false ->
             Dict.mem d (daily_usage (fst result)) = false).
Proof.
  intros Hwf result. subst result. rewrite load_document by exact Hwf.
  simpl. repeat split; auto.
Qed.

Lemma load_replaces_wholesale_witness :
  Dict.mem "code.exe" (app_usage demo_tracker) = true /\
  Dict.mem "code.exe"
    (app_usage (fst (load_data demo_tracker
                       (Some (document [("notepad.exe", 7)] []))))) = false.
Proof.
  split; [reflexivity|].
  apply (load_replaces_wholesale demo_tracker [("notepad.exe", 7)] []);
    [constructor | reflexivity].
Defined.

(** ** Well-formedness of the dictionaries is an invariant

    The round trip asks for distinct dates in [daily_usage].  Every tracker
    the program can reach has them: the constructor builds well-formed
    dictionaries and every operation keeps them well-formed. *)

Lemma Forall_alter {V : Type} (P : V -> Prop) (f : V -> V) (dflt : V)
  (k : string) (d : Dict.dict V) :
  P (f dflt) -> (forall v, P v -> P (f v)) ->
  Forall (fun entry => P (snd entry)) d ->
  Forall (fun entry => P (snd entry)) (Dict.alter f dflt k d).
Proof.
  intros Hd Hf. induction 1 as [|[k0 v] rest Hv Hrest IH]; simpl.
  - repeat constructor. exact Hd.
  - destruct (String.eqb k0 k); constructor; simpl; auto.
Qed.

Lemma wf_tracker_daily (t : tracker) : wf_tracker t -> Dict.wf (daily_usage t).
Proof. intros (_ & H & _). exact H. Qed.

Lemma wf_tracker_init_absent (now : Q) : wf_tracker (init now None).
Proof. repeat split; constructor. Qed.

Lemma wf_tracker_update_usage (t : tracker) (o : observation) :
  wf_tracker t -> wf_tracker (update_usage t o).
Proof.
  intros (Ha & Hd & Hin).
  destruct (is_tracking t) eqn:Htr;
    [|rewrite update_usage_not_tracking by exact Htr; repeat split; assumption].
  destruct (update_usage_cases t o Htr) as [(a & _ & _ & _ & ->)|(_ & ->)];
    [|repeat split; assumption].
  repeat split; simpl.
  - apply DictFacts.wf_alter, Ha.
  - apply DictFacts.wf_alter, Hd.
  - apply (Forall_alter (fun m => Dict.wf m)); [| |exact Hin].
    + repeat constructor. simpl. tauto.
    + intros m. apply DictFacts.wf_alter.
Qed.

Lemma wf_tracker_run (obs : list observation) (t : tracker) :
  wf_tracker t -> wf_tracker (run t obs).
Proof.
  revert t. induction obs as [|o rest IH]; intros t H; [exact H|].
  apply IH, wf_tracker_update_usage, H.
Qed.

Lemma wf_tracker_get_daily_total
  (t : tracker) (date : option string) (day : string) :
  wf_tracker t -> wf_tracker (fst (get_daily_total t date day)).
Proof.
  intros (Ha & Hd & Hin). repeat split; simpl.
  - exact Ha.
  - apply DictFacts.wf_alter, Hd.
  - apply (Forall_alter (fun m => Dict.wf m)); [constructor|auto|exact Hin].
Qed.

Lemma wf_tracker_load_document (t : tracker) (apps : usage) (days : daily) :
  Dict.wf apps -> Dict.wf days ->
  Forall (fun entry => Dict.wf (snd entry)) days ->
  wf_tracker (fst (load_data t (Some (document apps days)))).
Proof.
  intros Ha Hd Hin. rewrite load_document by exact Hd.
  repeat split; assumption.
Qed.

(** * Further properties of the code *)

Lemma Qfloor_unique (x : Q) (z : Z) :
  inject_Z z <= x -> x < inject_Z (z + 1) -> Qfloor x = z.
Proof.
  intros Hle Hlt.
  assert (H1 : (z <= Qfloor x)%Z).
  { rewrite <- (Qfloor_Z z). apply Qfloor_resp_le, Hle. }
  assert (H2 : (Qfloor x < z + 1)%Z).
  { rewrite Zlt_Qlt. eapply Qle_lt_trans; [apply Qfloor_le | exact Hlt]. }
  lia.
Qed.

Lemma Qfloor_div_pos (x : Q) (n : positive) :
  Qfloor (x / inject_Z (Zpos n)) = (Qfloor x / Zpos n)%Z.
Proof.
  destruct x as [a b]. unfold Qdiv, Qmult, Qinv, Qfloor. simpl.
  rewrite Z.mul_1_r, Pos2Z.inj_mul.
  symmetry. apply Z.div_div; lia.
Qed.

Lemma Qfloor_minus_Z (x : Q) (k : Z) :
  Qfloor (x - inject_Z k) = (Qfloor x - k)%Z.
Proof.
  apply Qfloor_unique.
  - pose proof (Qfloor_le x) as H. 
    unfold Z.sub. rewrite inject_Z_plus, inject_Z_opp. lra.
  - pose proof (Qlt_floor x) as H.
    replace (Qfloor x - k + 1)%Z with ((Qfloor x + 1) + - k)%Z by lia.
    rewrite inject_Z_plus, inject_Z_opp. lra.
Qed.

Lemma py_int_inject_Z (z : Z) : py_int (inject_Z z) = z.
Proof.
  unfold py_int. destruct (Qle_bool 0 (inject_Z z));
    [apply Qfloor_Z | apply Qceiling_Z].
Qed.

Lemma py_int_nonneg (x : Q) : 0 <= x -> py_int x = Qfloor x.
Proof.
  intros H. unfold py_int. apply Qle_bool_iff in H. now rewrite H.
Qed.

Lemma floordiv_pos (x : Q) (n : positive) :
  floordiv x (inject_Z (Zpos n)) = inject_Z (Qfloor x / Zpos n).
Proof. unfold floordiv. now rewrite Qfloor_div_pos. Qed.

Lemma pymod_pos (x : Q) (n : positive) :
  pymod x (inject_Z (Zpos n)) == x - inject_Z (Zpos n * (Qfloor x / Zpos n)).
Proof.
  unfold pymod. rewrite floordiv_pos, inject_Z_mult. reflexivity.
Qed.

Lemma pymod_pos_floor (x : Q) (n : positive) :
  0 <= pymod x (inject_Z (Zpos n)) /\
  Qfloor (pymod x (inject_Z (Zpos n))) = (Qfloor x mod Zpos n)%Z.
Proof.
  split.
  - rewrite pymod_pos.
    assert (H : (Zpos n * (Qfloor x / Zpos n) <= Qfloor x)%Z)
      by (apply Z.mul_div_le; lia).
    rewrite Zle_Qle in H. pose proof (Qfloor_le x). lra.
  - rewrite pymod_pos, Qfloor_minus_Z. rewrite Z.mod_eq by lia. reflexivity.
Qed.

(** With exact floor and remainder, the three numbers add up to the whole
    seconds, minutes and seconds are between 0 and 59, and the hours have
    the sign of the duration. *)
Lemma time_fields_decompose (s : Q) :
  let '(hours, minutes, seconds) := time_fields s in
  (hours * 3600 + minutes * 60 + seconds = Qfloor s)%Z /\
  (0 <= minutes < 60)%Z /\ (0 <= seconds < 60)%Z /\
  (0 <= s <-> (0 <= hours)%Z).
Proof.
  unfold time_fields.
  change (3600 : Q) with (inject_Z 3600). change (60 : Q) with (inject_Z 60).
  rewrite !floordiv_pos, !py_int_inject_Z.
  destruct (pymod_pos_floor s 3600) as [_ H3600].
  destruct (pymod_pos_floor s 60) as [Hnn H60].
  rewrite (py_int_nonneg _ Hnn), H3600, H60.
  set (F := Qfloor s).
  assert (Hs : 0 <= s <-> (0 <= F)%Z).
  { subst F. split; intros H.
    - rewrite <- (Qfloor_Z 0). now apply Qfloor_resp_le.
    - rewrite Zle_Qle in H. change (inject_Z 0) with 0 in H.
      pose proof (Qfloor_le s). lra. }
  rewrite Hs. clearbody F.
  repeat split; Z.div_mod_to_equations; lia.
Qed.

Lemma split_at_colon (a a' b b' : string) :
  colon_free a = true -> colon_free a' = true ->
  String.append a (String ":" b) = String.append a' (String ":" b') ->
  a = a' /\ b = b'.
Proof.
  revert a'. induction a as [|c rest IH]; intros [|c' rest']; simpl.
  - intros _ _ [= ->]. split; reflexivity.
  - intros _ H [= <- _]. discriminate.
  - intros H _ [= -> _]. discriminate.
  - intros H H' [= -> Heq].
    apply andb_true_iff in H, H'.
    destruct (IH rest' (proj2 H) (proj2 H') Heq) as [-> ->].
    split; reflexivity.
Qed.

Lemma colon_free_uint (d : Decimal.uint) :
  colon_free (NilEmpty.string_of_uint d) = true.
Proof. induction d; simpl; auto. Qed.

Lemma colon_free_format_02d (n : Z) : colon_free (format_02d n) = true.
Proof.
  assert (H : colon_free (NilZero.string_of_int (Z.to_int n)) = true).
  { destruct (Z.to_int n) as [d|d]; simpl;
      destruct d; try reflexivity; apply colon_free_uint. }
  unfold format_02d. destruct (_ && _); simpl; exact H.
Qed.

Lemma parse_format_02d_digit (n : Z) :
  (0 <= n < 10)%Z -> parse_02d (format_02d n) = Some n.
Proof.
  intros H.
  assert (Hall : forallb
            (fun k => match parse_02d (format_02d (Z.of_nat k)) with
                      | Some m => Z.eqb m (Z.of_nat k)
                      | None => false
                      end) (seq 0 10) = true) by (vm_compute; reflexivity).
  rewrite forallb_forall in Hall.
  specialize (Hall (Z.to_nat n)).
  rewrite Z2Nat.id in Hall by lia.
  destruct (parse_02d (format_02d n)) as [m|].
  - f_equal. apply Z.eqb_eq, Hall, in_seq. lia.
  - discriminate Hall. apply in_seq. lia.
Qed.

Lemma parse_format_02d (n : Z) : parse_02d (format_02d n) = Some n.
Proof.
  destruct ((0 <=? n)%Z && (n <? 10)%Z) eqn:E.
  - apply andb_true_iff in E. destruct E as [E1 E2].
    apply Z.leb_le in E1. apply Z.ltb_lt in E2.
    apply parse_format_02d_digit. lia.
  - unfold format_02d. rewrite E. unfold parse_02d. rewrite NilZero.isi.
    + simpl. now rewrite DecimalZ.of_to.
    + destruct n; simpl; try discriminate.
      intros [= H]. exact (Unsigned.to_uint_nonnil _ H).
    + destruct n; simpl; try discriminate.
      intros [= H]. exact (Unsigned.to_uint_nonnil _ H).
Qed.

Lemma format_02d_inj (n m : Z) : format_02d n = format_02d m -> n = m.
Proof.
  intros H. apply (f_equal parse_02d) in H.
  rewrite !parse_format_02d in H. congruence.
Qed.

Lemma time_fields_floor (s : Q) :
  time_fields s =
  ((Qfloor s / 3600)%Z, (Qfloor s mod 3600 / 60)%Z, (Qfloor s mod 60)%Z).
Proof.
  pose proof (time_fields_decompose s) as H.
  destruct (time_fields s) as [[h m] sec].
  destruct H as (H1 & H2 & H3 & _).
  repeat f_equal; Z.div_mod_to_equations; lia.
Qed.

(** With exact floor and remainder, the text depends on the whole seconds
    and on nothing else. *)
Lemma format_time_same_text (s1 s2 : Q) :
  format_time s1 = format_time s2 <-> Qfloor s1 = Qfloor s2.
Proof.
  split.
  - unfold format_time. intros H.
    pose proof (time_fields_decompose s1) as D1.
    pose proof (time_fields_decompose s2) as D2.
    destruct (time_fields s1) as [[h1 m1] c1].
    destruct (time_fields s2) as [[h2 m2] c2].
    apply split_at_colon in H; try apply colon_free_format_02d.
    destruct H as [Hh H].
    apply split_at_colon in H; try apply colon_free_format_02d.
    destruct H as [Hm Hc].
    apply format_02d_inj in Hh, Hm, Hc. subst.
    destruct D1 as (<- & _). destruct D2 as (<- & _). reflexivity.
  - intros H. unfold format_time. rewrite !time_fields_floor, H. reflexivity.
Qed.

(** X1.  For a duration from 0 up to [2^53] seconds, the three numbers
    [format_time] prints add up to the whole seconds of the duration, with
    minutes and seconds between 0 and 59; the hours are not negative and
    are not wrapped at 24. *)
Theorem time_fields_of_duration (s : Q) :
  0 <= s -> s < 9007199254740992 ->
  let '(hours, minutes, seconds) := time_fields s in
  (hours * 3600 + minutes * 60 + seconds = Qfloor s)%Z /\
  (0 <= hours)%Z /\ (0 <= minutes < 60)%Z /\ (0 <= seconds < 60)%Z.
Proof.
  intros H0 _. pose proof (time_fields_decompose s) as D.
  destruct (time_fields s) as [[h m] c].
  destruct D as (Hsum & Hm & Hc & Hh).
  apply Hh in H0. repeat split; (assumption || apply Hm || apply Hc).
Qed.

Lemma time_fields_of_duration_witness :
  let '(hours, minutes, seconds) := time_fields 90000 in
  (hours * 3600 + minutes * 60 + seconds = Qfloor 90000)%Z /\
  (0 <= hours)%Z /\ (0 <= minutes < 60)%Z /\ (0 <= seconds < 60)%Z.
Proof.
  apply (time_fields_of_duration 90000); [discriminate | reflexivity].
Defined.

(** X2.  Two durations from 0 up to [2^53] seconds are printed as the same
    text exactly when they have the same whole seconds: [format_time] drops
    the fraction and nothing else. *)
Theorem format_time_tells_whole_seconds (s1 s2 : Q) :
  0 <= s1 -> s1 < 9007199254740992 ->
  0 <= s2 -> s2 < 9007199254740992 ->
  (format_time s1 = format_time s2 <-> Qfloor s1 = Qfloor s2).
Proof.
  intros _ _ _ _. apply format_time_same_text.
Qed.

Lemma format_time_tells_whole_seconds_witness :
  format_time 3725 = format_time 3725.5.
Proof.
  apply (format_time_tells_whole_seconds 3725 3725.5);
    [discriminate | reflexivity | discriminate | reflexivity | reflexivity].
Defined.

Lemma format_02d_two_digits (n : Z) :
  (0 <= n < 100)%Z -> String.length (format_02d n) = 2%nat.
Proof.
  intros H.
  assert (Hall : forallb (fun k => Nat.eqb (String.length (format_02d (Z.of_nat k))) 2)
                   (seq 0 100) = true) by (vm_compute; reflexivity).
  rewrite forallb_forall in Hall.
  specialize (Hall (Z.to_nat n)).
  rewrite Z2Nat.id in Hall by lia.
  apply Nat.eqb_eq, Hall, in_seq. lia.
Qed.

(** ** Days *)

(** X4.  Over any run while tracking is on, the seconds of an application
    on a day end at what they were plus the elapsed values of exactly the
    ticks attributed to it whose date is that day. *)
Theorem daily_is_sum_of_attributed
  (t : tracker) (obs : list observation) (day : string) (app : AppId) :
  is_tracking t = true ->
  daily_cell day app (daily_usage (run t obs)) =
  fold_left Qplus
    (map fst (filter (attributed_on day app) (ticks (last_check_time t) obs)))
    (daily_cell day app (daily_usage t)).
Proof.
  revert t. induction obs as [|o rest IH]; intros t Htr; [reflexivity|].
  change (run t (o :: rest)) with (run (update_usage t o) rest).
  rewrite IH by (now rewrite update_usage_flag).
  rewrite update_usage_clock by exact Htr.
  simpl ticks. simpl filter.
  unfold attributed_on at 2, attributed_to, carries. simpl fst; simpl snd.
  destruct (update_usage_cases t o Htr)
    as [(a & Ha & Hne & Hlt & ->)|([Ha|[Ha|Hge]] & ->)].
  - rewrite Ha. apply Qltb_lt in Hlt. rewrite Hlt, andb_true_r.
    apply String.eqb_neq in Hne. rewrite Hne, andb_true_r. simpl daily_usage.
    rewrite cell_add_daily. rewrite (andb_comm (String.eqb a app)).
    destruct (String.eqb (today o) day), (String.eqb a app); reflexivity.
  - rewrite Ha. reflexivity.
  - rewrite Ha. simpl. rewrite andb_false_r. reflexivity.
  - apply Qltb_ge in Hge. rewrite Hge, andb_false_r. reflexivity.
Qed.

Lemma daily_is_sum_of_attributed_witness :
  daily_cell "2024-05-02" "code.exe" (daily_usage (run demo_tracker demo_run)) =
  fold_left Qplus [23 - 21] 0.
Proof.
  exact (daily_is_sum_of_attributed demo_tracker demo_run "2024-05-02"
           "code.exe" eq_refl).
Defined.

(** ** Keys *)

Lemma is_prefix_refl {A : Type} (l : list A) : is_prefix l l.
Proof. exists []. now rewrite app_nil_r. Qed.

Lemma is_prefix_trans {A : Type} (l1 l2 l3 : list A) :
  is_prefix l1 l2 -> is_prefix l2 l3 -> is_prefix l1 l3.
Proof.
  intros [r1 ->] [r2 ->]. exists (r1 ++ r2). now rewrite app_assoc.
Qed.

Lemma keys_alter_prefix {V : Type} (f : V -> V) (dflt : V) (k : string)
  (d : Dict.dict V) :
  is_prefix (Dict.keys d) (Dict.keys (Dict.alter f dflt k d)).
Proof.
  rewrite DictFacts.keys_alter. destruct (Dict.mem k d).
  - apply is_prefix_refl.
  - now exists [k].
Qed.

Lemma update_usage_keys (t : tracker) (o : observation) :
  is_prefix (Dict.keys (app_usage t)) (Dict.keys (app_usage (update_usage t o)))
  /\
  is_prefix (Dict.keys (daily_usage t))
            (Dict.keys (daily_usage (update_usage t o))).
Proof.
  destruct (is_tracking t) eqn:Htr.
  - destruct (update_usage_cases t o Htr) as [(a & _ & _ & _ & ->)|(_ & ->)];
      simpl; split;
      (apply keys_alter_prefix || apply is_prefix_refl).
  - rewrite update_usage_not_tracking by exact Htr.
    split; apply is_prefix_refl.
Qed.

(** X6.  Ticks never remove or reorder a key: the applications, and the
    dates, known before a run are the first keys after it, in the same
    order. *)
Theorem keys_only_grow (t : tracker) (obs : list observation) :
  is_prefix (Dict.keys (app_usage t)) (Dict.keys (app_usage (run t obs))) /\
  is_prefix (Dict.keys (daily_usage t)) (Dict.keys (daily_usage (run t obs))).
Proof.
  revert t. induction obs as [|o rest IH]; intros t.
  - split; apply is_prefix_refl.
  - change (run t (o :: rest)) with (run (update_usage t o) rest).
    destruct (update_usage_keys t o) as [H1 H2].
    destruct (IH (update_usage t o)) as [H3 H4].
    split; eapply is_prefix_trans; eassumption.
Qed.

(** ** Stopping and starting *)

Lemma run_not_tracking (t : tracker) (obs : list observation) :
  is_tracking t = false -> run t obs = t.
Proof.
  intros H. induction obs as [|o rest IH]; [reflexivity|].
  change (run t (o :: rest)) with (run (update_usage t o) rest).
  now rewrite update_usage_not_tracking.
Qed.

(** X7.  While tracking is off, ticks leave the whole tracker as it is,
    reference time included. *)
Theorem ticks_ignored_when_stopped (t : tracker) (obs : list observation) :
  is_tracking t = false -> run t obs = t.
Proof.
  intros H. induction obs as [|o rest IH]; [reflexivity|].
  change (run t (o :: rest)) with (run (update_usage t o) rest).
  rewrite update_usage_not_tracking by exact H. exact IH.
Qed.

(** X8.  The first tick after tracking is started again is measured from
    the moment of the start: whatever ticks came while it was stopped, the
    tick credits the clock minus the start time and nothing of the pause. *)
Theorem pause_is_not_counted
  (t : tracker) (paused : list observation) (now : Q) (o : observation)
  (app : AppId) :
  foreground o = Some app -> app <> "" -> clock o - now < 5 ->
  let stopped := fst (stop_tracking t) in
  let resumed := start_tracking now (run stopped paused) in
  credited app (today o) (clock o - now) t (update_usage resumed o).
Proof.
  intros Ha Hne Hlt stopped resumed. subst stopped resumed.
  rewrite run_not_tracking by reflexivity.
  set (r := start_tracking now (fst (stop_tracking t))).
  assert (Htr : is_tracking r = true) by reflexivity.
  destruct (update_usage_cases r o Htr)
    as [(a & Ha' & _ & _ & ->)|([Hn|[Hn|Hge]] & _)].
  - assert (a = app) as -> by congruence.
    exact (tick_credit_credited r o app).
  - congruence.
  - congruence.
  - exfalso. apply (Qlt_not_le _ _ Hlt). exact Hge.
Qed.

Lemma restart_from_saved (t : tracker) (now : Q) :
  Dict.wf (daily_usage t) ->
  app_usage (init now (snd (stop_tracking t))) = app_usage t /\
  daily_usage (init now (snd (stop_tracking t))) = daily_usage t.
Proof.
  intros Hwf. unfold init, stop_tracking. simpl snd.
  change (save_data ?x) with (document (app_usage t) (daily_usage t)).
  rewrite load_document by exact Hwf. split; reflexivity.
Qed.

(** X9.  [stop_tracking] clears the flag and writes a data file from which
    a new tracker is built with the same two mappings; the new tracker is
    not tracking. *)
Theorem stop_then_restart (t : tracker) (now : Q) :
  Dict.wf (daily_usage t) ->
  let restarted := init now (snd (stop_tracking t)) in
  is_tracking (fst (stop_tracking t)) = false /\
  app_usage restarted = app_usage t /\
  daily_usage restarted = daily_usage t /\
  is_tracking restarted = false /\
  last_check_time restarted = now.
Proof.
  intros Hwf restarted. subst restarted. unfold init, stop_tracking. simpl snd.
  change (save_data ?x) with (document (app_usage t) (daily_usage t)).
  rewrite load_document by exact Hwf. simpl. repeat split.
Qed.

Lemma stop_then_restart_witness :
  app_usage (init 0 (snd (stop_tracking demo_tracker))) =
    app_usage demo_tracker /\
  daily_usage (init 0 (snd (stop_tracking demo_tracker))) =
    daily_usage demo_tracker.
Proof.
  assert (H : Dict.wf (daily_usage demo_tracker))
    by (repeat constructor; simpl; tauto).
  destruct (stop_then_restart demo_tracker 0 H) as (_ & H1 & H2 & _).
  split; assumption.
Defined.

(** ** The daily total *)

Lemma mem_alter {V : Type} (f : V -> V) (dflt : V) (k : string)
  (d : Dict.dict V) : Dict.mem k (Dict.alter f dflt k d) = true.
Proof.
  induction d as [|[k0 v] rest IH]; simpl.
  - now rewrite String.eqb_refl.
  - destruct (String.eqb k0 k) eqn:E; simpl; rewrite E; simpl; auto.
Qed.

(** X10.  Asking for the daily total a second time gives the same total
    and changes nothing more. *)
Theorem daily_total_twice (t : tracker) (date : option string) (day : string) :
  get_daily_total (fst (get_daily_total t date day)) date day =
  get_daily_total t date day.
Proof.
  unfold get_daily_total. simpl.
  rewrite DictFacts.alter_id_present by apply mem_alter.
  reflexivity.
Qed.

(** X11.  [get_daily_total] changes no seconds: the lifetime mapping, the
    mapping of every date, every cell and every daily total read the same
    after the call as before. *)
Theorem daily_total_keeps_every_cell
  (t : tracker) (date : option string) (day : string) :
  let t' := fst (get_daily_total t date day) in
  app_usage t' = app_usage t /\
  (forall d, Dict.get [] d (daily_usage t') = Dict.get [] d (daily_usage t)) /\
  (forall d a, daily_cell d a (daily_usage t') = daily_cell d a (daily_usage t))
  /\
  (forall d, snd (get_daily_total t' (Some d) day) =
             snd (get_daily_total t (Some d) day)).
Proof.
  simpl. split; [reflexivity|].
  assert (H : forall k d, Dict.get [] d
                (Dict.alter (fun apps : usage => apps) [] k (daily_usage t)) =
              Dict.get [] d (daily_usage t)).
  { intros k d. rewrite DictFacts.get_alter. now destruct (String.eqb k d). }
  split; [intros d; apply H|]. split.
  - intros d a. unfold daily_cell. now rewrite H.
  - intros d. rewrite !DictFacts.get_alter, !String.eqb_refl.
    destruct (String.eqb _ d); reflexivity.
Qed.

(** ** Loading *)

Lemma load_days_frame (days : Dict.dict usage_json) (t : tracker) :
  let t' := fst (load_days t days) in
  app_usage t' = app_usage t /\ is_tracking t' = is_tracking t /\
  current_window t' = current_window t /\
  last_check_time t' = last_check_time t.
Proof.
  revert t. induction days as [|[date [apps|q]] rest IH]; intros t; simpl;
    [repeat split | | repeat split].
  destruct (IH (set_daily_usage (Dict.set date apps (daily_usage t)) t))
    as (H1 & H2 & H3 & H4).
  simpl in *. repeat split; assumption.
Qed.

Lemma load_days_same_start (days : Dict.dict usage_json) (t u : tracker) :
  app_usage t = app_usage u -> daily_usage t = daily_usage u ->
  is_tracking t = is_tracking u -> current_window t = current_window u ->
  last_check_time t = last_check_time u ->
  load_days t days = load_days u days.
Proof.
  intros. destruct t, u. simpl in *. now subst.
Qed.


(** X15.  Loading the same data file a second time changes nothing,
    whatever the file holds. *)
Theorem load_twice (t : tracker) (s : store) :
  load_data (fst (load_data t s)) s = load_data t s.
Proof.
  destruct s as [c|]; [|reflexivity].
  unfold load_data.
  destruct c as [| q | [[apps|q]|] [[days|q']|]]; simpl; try reflexivity.
  - pose proof (load_days_frame days
      (set_daily_usage [] (set_app_usage apps t))) as (H1 & H2 & H3 & H4).
    destruct (load_days (set_daily_usage [] (set_app_usage apps t)) days)
      as [t1 e1] eqn:E1. simpl in *.
    rewrite (load_days_same_start days
               (set_daily_usage [] (set_app_usage apps t1))
               (set_daily_usage [] (set_app_usage apps t)));
      simpl; auto.
    now rewrite E1.
  - pose proof (load_days_frame days
      (set_daily_usage [] (set_app_usage [] t))) as (H1 & H2 & H3 & H4).
    destruct (load_days (set_daily_usage [] (set_app_usage [] t)) days)
      as [t1 e1] eqn:E1. simpl in *.
    rewrite (load_days_same_start days
               (set_daily_usage [] (set_app_usage [] t1))
               (set_daily_usage [] (set_app_usage [] t)));
      simpl; auto.
    now rewrite E1.
Qed.

Lemma keys_mappings_before_error (days : Dict.dict usage_json) :
  is_prefix (Dict.keys (mappings_before_error days)) (Dict.keys days).
Proof.
  induction days as [|[date [apps|q]] rest IH]; simpl.
  - apply is_prefix_refl.
  - destruct IH as [r Hr]. exists r. simpl. now rewrite Hr.
  - now exists (date :: Dict.keys rest).
Qed.

Lemma load_days_until_error (days : Dict.dict usage_json) (t : tracker) :
  NoDup (Dict.keys (daily_usage t) ++ Dict.keys days) ->
  daily_usage (fst (load_days t days)) =
    daily_usage t ++ mappings_before_error days /\
  (snd (load_days t days) = None <->
   days = as_json (mappings_before_error days)).
Proof.
  revert t. induction days as [|[date [apps|q]] rest IH]; intros t Hnd; simpl.
  - rewrite app_nil_r. split; [reflexivity | tauto].
  - assert (Hfresh : ~ In date (Dict.keys (daily_usage t))).
    { intros Hin. apply NoDup_remove_2 in Hnd. apply Hnd.
      apply in_or_app. now left. }
    rewrite set_absent by exact Hfresh.
    destruct (IH (set_daily_usage (daily_usage t ++ [(date, apps)]) t))
      as [H1 H2].
    { simpl. unfold Dict.keys in *. rewrite map_app, <- app_assoc.
      exact Hnd. }
    simpl in H1. split.
    + rewrite H1, <- app_assoc. reflexivity.
    + rewrite H2. split; [intros <-; reflexivity | intros [= <-]; reflexivity].
  - rewrite app_nil_r. split; [reflexivity|]. split; discriminate.
Qed.

(** X16.  Loading a document whose [app_usage] is a mapping of numbers and
    whose dates each hold a mapping of numbers or a number replaces the
    lifetime mapping by the document's and the daily mapping by the dates
    of the document that come before the first one that holds a number
    (all of them when none does). *)
Theorem load_keeps_days_before_error
  (t : tracker) (apps : usage) (days : Dict.dict usage_json) :
  NoDup (Dict.keys days) ->
  let result := load_data t (Some (TopObj (Some (UObj apps))
                                          (Some (DObj days)))) in
  snd result = Returned /\
  app_usage (fst result) = apps /\
  daily_usage (fst result) = mappings_before_error days.
Proof.
  intros Hnd result. subst result. unfold load_data, load_body.
  pose proof (load_days_frame days
    (set_daily_usage [] (set_app_usage apps t))) as (H1 & _).
  destruct (load_days_until_error days
    (set_daily_usage [] (set_app_usage apps t)) Hnd) as [H2 _].
  destruct (load_days _ days) as [t1 e1]. simpl in *.
  repeat split; assumption.
Qed.

Lemma load_keeps_days_before_error_witness :
  daily_usage
    (fst (load_data demo_tracker
            (Some (TopObj (Some (UObj [("notepad.exe", 7)]))
                     (Some (DObj [("2024-05-02", UObj [("notepad.exe", 7)]);
                                  ("2024-05-03", UNum 5);
                                  ("2024-05-04", UObj [])])))))) =
  [("2024-05-02", [("notepad.exe", 7)])].
Proof.
  apply (load_keeps_days_before_error demo_tracker [("notepad.exe", 7)]
           [("2024-05-02", UObj [("notepad.exe", 7)]);
            ("2024-05-03", UNum 5); ("2024-05-04", UObj [])]).
  repeat constructor; simpl; intuition discriminate.
Defined.

Lemma length_append (a b : string) :
  String.length (String.append a b) = (String.length a + String.length b)%nat.
Proof. induction a as [|c rest IH]; simpl; [reflexivity | now rewrite IH]. Qed.

(** X3.  Below one hundred hours a non-negative duration is printed on
    exactly eight characters. *)
Theorem format_time_eight_characters (s : Q) :
  0 <= s -> s < 360000 -> String.length (format_time s) = 8%nat.
Proof.
  intros H0 H1. unfold format_time.
  pose proof (time_fields_decompose s) as D.
  destruct (time_fields s) as [[h m] c].
  destruct D as (Hsum & Hm & Hc & Hh).
  assert (HF : (Qfloor s < 360000)%Z).
  { rewrite Zlt_Qlt. eapply Qle_lt_trans; [apply Qfloor_le | exact H1]. }
  apply Hh in H0.
  rewrite length_append. simpl. rewrite length_append. simpl.
  rewrite !format_02d_two_digits by lia. reflexivity.
Qed.

Lemma format_time_eight_characters_witness :
  String.length (format_time 3725) = 8%nat.
Proof.
  apply (format_time_eight_characters 3725); [discriminate | reflexivity].
Defined.

(** ** The window *)

Lemma refresh_display_frame (today : string) (g : gui) :
  let g' := refresh_display today g in
  status_label g' = status_label g /\
  start_btn_enabled g' = start_btn_enabled g /\
  stop_btn_enabled g' = stop_btn_enabled g /\
  is_tracking (gui_tracker g') = is_tracking (gui_tracker g) /\
  app_usage (gui_tracker g') = app_usage (gui_tracker g) /\
  daily_usage (gui_tracker g') =
    Dict.alter (fun apps => apps) [] today (daily_usage (gui_tracker g)).
Proof. simpl. repeat split. Qed.




Lemma get_after_touch (k d : string) (dl : daily) :
  Dict.get [] d (Dict.alter (fun apps : usage => apps) [] k dl) =
  Dict.get [] d dl.
Proof. rewrite DictFacts.get_alter. now destruct (String.eqb k d). Qed.

(** X18.  The tab of the day lists every application of the day once, most
    seconds first, equal seconds in dictionary order, and its total is the
    sum of the day. *)
Theorem today_tab_lists_every_app (today : string) (g : gui) :
  let g' := update_today_display today g in
  let today_data := Dict.get [] today (daily_usage (gui_tracker g)) in
  today_total_label g' =
    String.append "Today's Total: "
                  (format_time (py_sum (Dict.values today_data))) /\
  exists shown,
    today_tree g' = rows shown /\
    Permutation shown today_data /\
    StronglySorted more_first shown /\
    (forall v, filter (has_seconds v) shown = filter (has_seconds v) today_data).
Proof.
  simpl. rewrite get_after_touch. split; [reflexivity|].
  exists (sorted_desc (Dict.get [] today (daily_usage (gui_tracker g)))).
  split; [reflexivity|]. split; [apply sorted_desc_perm|].
  split; [apply sorted_desc_sorted | intros v; apply sorted_desc_stable].
Qed.

Lemma sorted_app_order {A : Type} (R : A -> A -> Prop) (l1 l2 : list A) :
  StronglySorted R (l1 ++ l2) ->
  forall x y, In x l1 -> In y l2 -> R x y.
Proof.
  induction l1 as [|a rest IH]; simpl; intros Hs x y Hx Hy; [tauto|].
  inversion Hs as [|? ? Hrest Hall]; subst.
  destruct Hx as [<-|Hx].
  - rewrite Forall_forall in Hall. apply Hall, in_or_app. now right.
  - now apply IH.
Qed.

Lemma sorted_app_left {A : Type} (R : A -> A -> Prop) (l1 l2 : list A) :
  StronglySorted R (l1 ++ l2) -> StronglySorted R l1.
Proof.
  induction l1 as [|a rest IH]; simpl; intros Hs; [constructor|].
  inversion Hs as [|? ? Hrest Hall]; subst.
  constructor; [now apply IH|].
  rewrite Forall_forall in *. intros x Hx. apply Hall, in_or_app. now left.
Qed.

(** X19.  The all-time tab lists at most twenty applications, most seconds
    first; an application left out has no more seconds than any listed one;
    the total line counts every application, listed or not. *)
Theorem alltime_tab_shows_the_top_twenty (g : gui) :
  let g' := update_alltime_display g in
  let t := gui_tracker g in
  alltime_total_label g' =
    String.append "Total Time: " (format_time (all_time_total t)) /\
  gui_tracker g' = t /\
  exists shown hidden,
    alltime_tree g' = rows shown /\
    Permutation (shown ++ hidden) (app_usage t) /\
    List.length shown = Nat.min 20 (List.length (app_usage t)) /\
    StronglySorted more_first shown /\
    (forall x y, In x shown -> In y hidden -> snd y <= snd x).
Proof.
  simpl. split; [reflexivity|]. split; [reflexivity|].
  set (l := app_usage (gui_tracker g)).
  exists (firstn 20 (sorted_desc l)), (skipn 20 (sorted_desc l)).
  assert (Hs : StronglySorted more_first
                 (firstn 20 (sorted_desc l) ++ skipn 20 (sorted_desc l))).
  { rewrite firstn_skipn. apply sorted_desc_sorted. }
  split; [reflexivity|]. split; [|split; [|split]].
  - rewrite firstn_skipn. apply sorted_desc_perm.
  - rewrite length_firstn.
    now rewrite (Permutation_length (sorted_desc_perm l)).
  - exact (sorted_app_left _ _ _ Hs).
  - intros x y Hx Hy. exact (sorted_app_order _ _ _ Hs x y Hx Hy).
Qed.

(** X21.  Refreshing the display changes no seconds; it leaves an entry
    for today's date in [daily_usage], an empty one when there was none. *)
Theorem refresh_changes_no_seconds (today : string) (g : gui) :
  let t := gui_tracker g in
  let t' := gui_tracker (refresh_display today g) in
  app_usage t' = app_usage t /\
  (forall d a, daily_cell d a (daily_usage t') = daily_cell d a (daily_usage t))
  /\
  Dict.mem today (daily_usage t') = true /\
  (Dict.mem today (daily_usage t) = true -> t' = t) /\
  (Dict.mem today (daily_usage t) = false ->
   daily_usage t' = daily_usage t ++ [(today, [])]).
Proof.
  simpl. split; [reflexivity|]. split; [|split; [|split]].
  - intros d a. unfold daily_cell. now rewrite get_after_touch.
  - apply mem_alter.
  - intros H. rewrite DictFacts.alter_id_present by exact H.
    now destruct (gui_tracker g).
  - intros H. apply DictFacts.alter_absent.
    intros Hin. apply DictFacts.mem_In_keys in Hin.
    exact (eq_true_false_abs _ Hin H).
Qed.

(** X22.  The stop button writes the data file before it refreshes the
    display: a tracker built from the file has the mappings the tracker had
    when the button was pressed, and reads the same seconds as the tracker
    after the refresh. *)
Theorem stop_button_saves_then_refreshes
  (today : string) (g : gui) (now : Q) :
  Dict.wf (daily_usage (gui_tracker g)) ->
  let g' := fst (gui_stop_tracking today g) in
  let restarted := init now (snd (gui_stop_tracking today g)) in
  is_tracking (gui_tracker g') = false /\
  snd (gui_stop_tracking today g) = snd (stop_tracking (gui_tracker g)) /\
  app_usage restarted = app_usage (gui_tracker g') /\
  daily_usage restarted = daily_usage (gui_tracker g) /\
  (forall d a, daily_cell d a (daily_usage restarted) =
               daily_cell d a (daily_usage (gui_tracker g'))).
Proof.
  intros Hwf g' restarted.
  destruct (restart_from_saved (gui_tracker g) now Hwf) as [H1 H2].
  subst g' restarted. unfold gui_stop_tracking.
  simpl. simpl in H1, H2. rewrite H1, H2.
  repeat split. intros d a. unfold daily_cell. now rewrite get_after_touch.
Qed.

Lemma ticks_ignored_when_stopped_witness :
  run (fst (stop_tracking demo_tracker)) demo_run =
  fst (stop_tracking demo_tracker).
Proof.
  apply (ticks_ignored_when_stopped (fst (stop_tracking demo_tracker))
           demo_run).
  reflexivity.
Defined.

Lemma pause_is_not_counted_witness :
  credited "code.exe" "2024-05-01" (102 - 100) demo_tracker
    (update_usage
       (start_tracking 100 (run (fst (stop_tracking demo_tracker)) demo_run))
       (at_clock 102)).
Proof.
  apply (pause_is_not_counted demo_tracker demo_run 100 (at_clock 102)
           "code.exe");
    [reflexivity | discriminate | reflexivity].
Defined.

Lemma stop_button_saves_then_refreshes_witness :
  daily_usage
    (init 0 (snd (gui_stop_tracking "2024-05-09"
                    (gui_init 0 (Some (save_data demo_tracker)))))) =
  daily_usage demo_tracker.
Proof.
  apply (stop_button_saves_then_refreshes "2024-05-09"
           (gui_init 0 (Some (save_data demo_tracker))) 0).
  repeat constructor. simpl. tauto.
Defined.

Lemma get_daily_total_missing_witness :
  snd (get_daily_total demo_tracker (Some "2024-05-09") "2024-05-09") = 0.
Proof.
  apply (get_daily_total_missing demo_tracker "2024-05-09" "2024-05-09").
  reflexivity.
Defined.
